(** * pulse-feed: the scheduled heartbeat handler

    A shallow embedding of [src/poller/main.py] and the properties of its
    single entry point [lambda_handler].

    The handler builds a four-entry mapping out of two constants, the system
    clock and a 200-character preview of [str(event)].  The embedding keeps
    the three things the handler touches explicit:

    - Python values, with the [str]/[repr] conversions of the built-in types
      an invocation event is made of;
    - the process state, of which the handler only reads the clock;
    - exceptions, which [str(event)] may raise. *)

From Stdlib Require Import List ZArith NArith QArith Bool Lia.
From Stdlib Require Import Ascii String DecimalString.
Import ListNotations.

Local Open Scope N_scope.
Local Open Scope list_scope.

(** ** Python strings *)

(** A [str] is a sequence of Unicode code points; [len] and slicing count
    code points, not bytes. *)
Definition char := N.
Definition pystr := list char.

(** An ASCII literal of the source, as a [str]. *)
Definition lit (s : string) : pystr :=
  List.map N_of_ascii (list_ascii_of_string s).

(** [s[:stop]] for a non-negative [stop]: the first [stop] characters, or
    all of [s] when it is shorter. *)
Definition slice_to (stop : nat) (s : pystr) : pystr := firstn stop s.

Fixpoint str_eqb (a b : pystr) : bool :=
  match a, b with
  | [], [] => true
  | x :: a', y :: b' => (x =? y) && str_eqb a' b'
  | _, _ => false
  end.

(** ** Exceptions and results *)

Inductive exn : Type :=
| PyExc (type_name : string).

Inductive result (A : Type) : Type :=
| Ok (a : A)
| Raise (e : exn).
Arguments Ok {A} a.
Arguments Raise {A} e.

Definition rbind {A B : Type} (r : result A) (k : A -> result B) : result B :=
  match r with
  | Ok a => k a
  | Raise e => Raise e
  end.

(** ** Python values *)

(** The values an event or a context is made of.  [PyOther] stands for an
    instance of any type not listed (a float, a platform context object, a
    user class): it is described by what its [__str__] and [__repr__]
    produce, either of which may raise.  Only the result of these methods
    is kept: whatever else their code does to the process is outside the
    model. *)
#[warnings="-register-all"]
Inductive pyval : Type :=
| PyNone
| PyBool (b : bool)
| PyInt (z : Z)
| PyStr (s : pystr)
| PyList (xs : list pyval)
| PyDict (items : list (pyval * pyval))
| PyOther (str_ : result pystr) (repr_ : result pystr).

(** ** The process state *)

(** [clock] is the value the next [time.time()] returns: a finite double,
    which is a rational number.  Everything else of the process (module
    globals, heap, files, sockets) is the [state], of a type left open. *)
Record world (store : Type) : Type := World { clock : Q; state : store }.
Arguments World {store} clock state.
Arguments clock {store} w.
Arguments state {store} w.

(** ** [repr] and [str] of the built-in types *)

Definition repr_int (z : Z) : pystr :=
  lit (NilZero.string_of_int (Z.to_int z)).

Definition hexdigit (d : N) : char :=
  nth (N.to_nat d) (lit "0123456789abcdef") 48.

(** [width] lower-case hexadecimal digits of [c], most significant first. *)
Fixpoint hex_fixed (width : nat) (c : N) : pystr :=
  match width with
  | O => []
  | S w => hex_fixed w (c / 16) ++ [hexdigit (c mod 16)]
  end.

(** [repr] of a string prefers single quotes and switches to double quotes
    when the string holds a single quote and no double quote. *)
Definition repr_quote (s : pystr) : char :=
  if existsb (N.eqb 39) s && negb (existsb (N.eqb 34) s) then 34 else 39.

(** ** Sample invocations *)

(** An interpreter whose Unicode database calls nothing above ASCII
    printable. *)
Definition ascii_only (c : char) : bool := false.

(** A process with no other state, at three and a half seconds before the
    epoch. *)
Definition sample_world : world unit :=
  {| clock := (-7 # 2)%Q; state := tt |}.

(** [{"a": 1}] and its text. *)
Definition sample_event : pyval := PyDict [(PyStr (lit "a"), PyInt 1)].
Definition sample_text : pystr := lit "{'a': 1}".

(** What the handler returns for [sample_event] in [sample_world]. *)
Definition sample_result : pyval :=
  PyDict
    [ (PyStr (lit "status"), PyStr (lit "ok"));
      (PyStr (lit "message"), PyStr (lit "ingestor heartbeat"));
      (PyStr (lit "time"), PyInt (-3));
      (PyStr (lit "event_preview"), PyStr sample_text) ].

(** A list of a hundred sevens; its text has 300 characters. *)
Definition long_event : pyval := PyList (repeat (PyInt 7) 100).
Definition long_text : pystr :=
  lit "[" ++ List.concat (repeat (lit "7, ") 99) ++ lit "7]".

(** What the handler returns for [long_event] in [sample_world]. *)
Definition long_result : pyval :=
  PyDict
    [ (PyStr (lit "status"), PyStr (lit "ok"));
      (PyStr (lit "message"), PyStr (lit "ingestor heartbeat"));
      (PyStr (lit "time"), PyInt (-3));
      (PyStr (lit "event_preview"), PyStr (slice_to 200 long_text)) ].

(** Two and a half seconds after the epoch. *)
Definition later_world : world unit :=
  {| clock := (5 # 2)%Q; state := tt |}.

(** A string that reads as [sample_event] does. *)
Definition sample_string : pyval := PyStr (lit "{'a': 1}").

(** What the handler returns for [sample_string] in [later_world]. *)
Definition later_result : pyval :=
  PyDict
    [ (PyStr (lit "status"), PyStr (lit "ok"));
      (PyStr (lit "message"), PyStr (lit "ingestor heartbeat"));
      (PyStr (lit "time"), PyInt 2);
      (PyStr (lit "event_preview"), PyStr sample_text) ].

(** An object whose [__str__] raises. *)
Definition unprintable : pyval :=
  PyOther (Raise (PyExc "ValueError")) (Ok (lit "<Unprintable>")).

Section Handler.

(** Whether a code point above ASCII is printable is read from the
    interpreter's Unicode database, which is not part of the repository. *)
Variable isprintable : char -> bool.

Definition repr_char (quote c : char) : pystr :=
  if (c =? quote) || (c =? 92) then [92; c]
  else if c =? 9 then lit "\t"
  else if c =? 10 then lit "\n"
  else if c =? 13 then lit "\r"
  else if (c <? 32) || (c =? 127) then lit "\x" ++ hex_fixed 2 c
  else if c <? 127 then [c]
  else if isprintable c then [c]
  else if c <=? 255 then lit "\x" ++ hex_fixed 2 c
  else if c <=? 65535 then lit "\u" ++ hex_fixed 4 c
  else lit "\U" ++ hex_fixed 8 c.

Definition repr_str (s : pystr) : pystr :=
  let q := repr_quote s in
  q :: flat_map (repr_char q) s ++ [q].

(** [", ".join(parts)] *)
Fixpoint join_comma (parts : list pystr) : pystr :=
  match parts with
  | [] => []
  | [p] => p
  | p :: rest => p ++ lit ", " ++ join_comma rest
  end.

(** [repr] visits the elements of a container in order; the first
    exception raised by an element is the exception of the whole.  The
    text is the one the conversion produces when the interpreter lets it
    complete: its resource limits (recursion depth, the cap on the digits
    of an integer conversion, memory) are not part of the model.  Where
    the interpreter stops a conversion with [RecursionError] or
    [ValueError] this function still gives a text, so its [Ok] on built-in
    data is not a statement that the real conversion succeeds; the
    properties below take the success of [str(event)] as a hypothesis. *)
Fixpoint py_repr (v : pyval) : result pystr :=
  match v with
  | PyNone => Ok (lit "None")
  | PyBool true => Ok (lit "True")
  | PyBool false => Ok (lit "False")
  | PyInt z => Ok (repr_int z)
  | PyStr s => Ok (repr_str s)
  | PyList xs =>
      rbind
        ((fix elems (l : list pyval) : result (list pystr) :=
            match l with
            | [] => Ok []
            | x :: l' =>
                rbind (py_repr x) (fun rx =>
                rbind (elems l') (fun rl => Ok (rx :: rl)))
            end) xs)
        (fun parts => Ok (lit "[" ++ join_comma parts ++ lit "]"))
  | PyDict items =>
      rbind
        ((fix entries (l : list (pyval * pyval)) : result (list pystr) :=
            match l with
            | [] => Ok []
            | (k, x) :: l' =>
                rbind (py_repr k) (fun rk =>
                rbind (py_repr x) (fun rx =>
                rbind (entries l') (fun rl =>
                Ok ((rk ++ lit ": " ++ rx) :: rl))))
            end) items)
        (fun parts => Ok (lit "{" ++ join_comma parts ++ lit "}"))
  | PyOther _ repr_ => repr_
  end.

(** [str(v)]: a string is returned as it is, the other built-in types
    fall back to [repr]. *)
Definition py_str (v : pyval) : result pystr :=
  match v with
  | PyStr s => Ok s
  | PyOther str_ _ => str_
  | _ => py_repr v
  end.

(** ** Mappings *)

(** A [dict] keeps its entries in insertion order.  [dict_get d key] is
    [d.get(key)] for a string [key]: only a string key can equal it. *)
Fixpoint lookup_str (key : pystr) (items : list (pyval * pyval))
  : option pyval :=
  match items with
  | [] => None
  | (PyStr k, v) :: rest =>
      if str_eqb k key then Some v else lookup_str key rest
  | _ :: rest => lookup_str key rest
  end.

Definition dict_get (d : pyval) (key : pystr) : option pyval :=
  match d with
  | PyDict items => lookup_str key items
  | _ => None
  end.

(** [list(d.keys())] *)
Definition dict_keys (d : pyval) : option (list pyval) :=
  match d with
  | PyDict items => Some (List.map fst items)
  | _ => None
  end.

(** ** Computations on the process state *)

(** The handler is written for any [store]. *)
Variable store : Type.

(** Computations that read or change the world and may raise. *)
Definition M (A : Type) : Type := world store -> result A * world store.

Definition ret {A : Type} (a : A) : M A := fun w => (Ok a, w).

Definition bind {A B : Type} (m : M A) (k : A -> M B) : M B :=
  fun w =>
    match m w with
    | (Ok a, w') => k a w'
    | (Raise e, w') => (Raise e, w')
    end.

Definition lift {A : Type} (r : result A) : M A := fun w => (r, w).

Notation "x <- m ;; k" := (bind m (fun x => k))
  (at level 61, m at next level, right associativity).

(** [time.time()] *)
Definition time_time : M Q := fun w => (Ok (clock w), w).

(** [int(x)] of a finite float drops the fractional part: it rounds
    toward zero. *)
Definition int_of_float (x : Q) : Z := Z.quot (Qnum x) (Z.pos (Qden x)).

(** ** The handler *)

(** The entries of the returned mapping are evaluated in the order they
    are written: the clock is read before [event] is converted. *)
Definition lambda_handler (event context : pyval) : M pyval :=
  now <- time_time ;;
  text <- lift (py_str event) ;;
  ret (PyDict
         [ (PyStr (lit "status"), PyStr (lit "ok"));
           (PyStr (lit "message"), PyStr (lit "ingestor heartbeat"));
           (PyStr (lit "time"), PyInt (int_of_float now));
           (PyStr (lit "event_preview"), PyStr (slice_to 200 text)) ]).

(** ** What "truncated to an integer" means *)

(** [z] is [x] with its fractional part dropped. *)
Definition truncation_of (x : Q) (z : Z) : Prop :=
  ((0 <= x)%Q -> (inject_Z z <= x)%Q /\ (x < inject_Z (z + 1))%Q) /\
  ((x <= 0)%Q -> (inject_Z (z - 1) < x)%Q /\ (x <= inject_Z z)%Q).

(** ** Auxiliary facts *)

Lemma str_eqb_eq (a b : pystr) : str_eqb a b = true <-> a = b.
Proof.
  revert b; induction a as [|x a IH]; intros [|y b]; simpl;
    try (split; [discriminate | discriminate]); try tauto.
  rewrite andb_true_iff, N.eqb_eq, IH.
  split; [intros [-> ->]; reflexivity | intros E; inversion E; auto].
Qed.

Lemma str_eqb_refl (a : pystr) : str_eqb a a = true.
Proof. apply str_eqb_eq; reflexivity. Qed.

(** The mapping built by the handler from a clock reading and the text
    of the event. *)
Lemma lambda_handler_ok (event context : pyval) (w : world store) (text : pystr) :
  py_str event = Ok text ->
  lambda_handler event context w =
    (Ok (PyDict
           [ (PyStr (lit "status"), PyStr (lit "ok"));
             (PyStr (lit "message"), PyStr (lit "ingestor heartbeat"));
             (PyStr (lit "time"), PyInt (int_of_float (clock w)));
             (PyStr (lit "event_preview"), PyStr (slice_to 200 text)) ]),
     w).
Proof.
  intros Hstr. unfold lambda_handler, bind, time_time, lift, ret.
  rewrite Hstr. reflexivity.
Qed.

(** An exception of [str(event)] leaves the handler as it is. *)
Lemma lambda_handler_raise (event context : pyval) (w : world store) (e : exn) :
  py_str event = Raise e ->
  lambda_handler event context w = (Raise e, w).
Proof.
  intros Hstr. unfold lambda_handler, bind, time_time, lift, ret.
  rewrite Hstr. reflexivity.
Qed.

Lemma lambda_handler_inv (event context : pyval) (w : world store) (r : pyval) :
  fst (lambda_handler event context w) = Ok r ->
  exists text,
    py_str event = Ok text /\
    r = PyDict
          [ (PyStr (lit "status"), PyStr (lit "ok"));
            (PyStr (lit "message"), PyStr (lit "ingestor heartbeat"));
            (PyStr (lit "time"), PyInt (int_of_float (clock w)));
            (PyStr (lit "event_preview"), PyStr (slice_to 200 text)) ].
Proof.
  destruct (py_str event) as [text|e] eqn:Hstr.
  - rewrite (lambda_handler_ok event context w text Hstr). simpl.
    intros E; inversion E; subst. exists text; split; reflexivity.
  - rewrite (lambda_handler_raise event context w e Hstr). simpl.
    discriminate.
Qed.

(** A slice is a prefix, of the length asked for when there is enough. *)
Lemma slice_to_prefix (n : nat) (s : pystr) :
  s = slice_to n s ++ skipn n s.
Proof. unfold slice_to. symmetry. apply firstn_skipn. Qed.

Lemma slice_to_length (n : nat) (s : pystr) :
  List.length (slice_to n s) = Nat.min n (List.length s).
Proof. unfold slice_to. apply length_firstn. Qed.

Lemma slice_to_all (n : nat) (s : pystr) :
  (List.length s <= n)%nat -> slice_to n s = s.
Proof. unfold slice_to. apply firstn_all2. Qed.

(** [int] of a float drops its fractional part. *)
Lemma int_of_float_truncation (x : Q) : truncation_of x (int_of_float x).
Proof.
  destruct x as [n d]. unfold truncation_of, int_of_float, Qle, Qlt.
  simpl. rewrite !Z.mul_1_r.
  assert (Hd : (0 < Z.pos d)%Z) by lia.
  split; intros Hn.
  - rewrite Z.quot_div_nonneg by lia.
    pose proof (Z.mul_div_le n (Z.pos d) Hd).
    pose proof (Z.mul_succ_div_gt n (Z.pos d) Hd).
    split; lia.
  - assert (Hq : (n ÷ Z.pos d = - (- n / Z.pos d))%Z).
    { rewrite <- Z.quot_div_nonneg by lia.
      rewrite Z.quot_opp_l by lia. lia. }
    rewrite Hq.
    pose proof (Z.mul_div_le (- n) (Z.pos d) Hd).
    pose proof (Z.mul_succ_div_gt (- n) (Z.pos d) Hd).
    split; lia.
Qed.

(** The description determines the integer. *)
Lemma truncation_of_unique (x : Q) (z : Z) :
  truncation_of x z -> z = int_of_float x.
Proof.
  intros Hz. pose proof (int_of_float_truncation x) as Hi.
  revert Hz Hi. generalize (int_of_float x) as i.
  destruct x as [n d]. unfold truncation_of, Qle, Qlt. simpl.
  rewrite !Z.mul_1_r. intros i [Hz1 Hz2] [Hi1 Hi2].
  destruct (Z.le_gt_cases 0 n) as [Hn|Hn].
  - specialize (Hz1 Hn). specialize (Hi1 Hn). nia.
  - assert (Hn' : (n <= 0)%Z) by lia.
    specialize (Hz2 Hn'). specialize (Hi2 Hn'). nia.
Qed.

(** ** The properties of the handler *)

(** C1: whenever an invocation returns a record, whatever the event and
    the context, its [status] is the string "ok" and its [message] is the
    string "ingestor heartbeat". *)
Theorem lambda_handler_status_message
        (event context : pyval) (w : world store) (r : pyval) :
  fst (lambda_handler event context w) = Ok r ->
  dict_get r (lit "status") = Some (PyStr (lit "ok")) /\
  dict_get r (lit "message") = Some (PyStr (lit "ingestor heartbeat")).
Proof.
  intros Hr. apply lambda_handler_inv in Hr as (text & _ & ->).
  split; reflexivity.
Qed.

(** C2: when [str(event)] is a text of at most 200 characters, the
    handler returns a record whose [event_preview] is that whole text. *)
Theorem event_preview_short
        (event context : pyval) (w : world store) (text : pystr) :
  py_str event = Ok text ->
  (List.length text <= 200)%nat ->
  exists r,
    fst (lambda_handler event context w) = Ok r /\
    dict_get r (lit "event_preview") = Some (PyStr text).
Proof.
  intros Hstr Hlen.
  rewrite (lambda_handler_ok event context w text Hstr).
  eexists; split; [reflexivity|].
  rewrite (slice_to_all 200 text Hlen). reflexivity.
Qed.

(** C3: when [str(event)] is a text of more than 200 characters, the
    handler returns a record whose [event_preview] is exactly the first
    200 characters of that text: a prefix of it, of length 200. *)
Theorem event_preview_long
        (event context : pyval) (w : world store) (text : pystr) :
  py_str event = Ok text ->
  (200 < List.length text)%nat ->
  exists r preview tail,
    fst (lambda_handler event context w) = Ok r /\
    dict_get r (lit "event_preview") = Some (PyStr preview) /\
    text = preview ++ tail /\
    List.length preview = 200%nat.
Proof.
  intros Hstr Hlen.
  rewrite (lambda_handler_ok event context w text Hstr).
  eexists; exists (slice_to 200 text), (skipn 200 text).
  split; [reflexivity|]. split; [reflexivity|].
  split; [apply slice_to_prefix|].
  rewrite slice_to_length. lia.
Qed.

(** C4: the [time] of a returned record is the reading of the system
    clock taken by the invocation, converted by [int]: the reading with
    its fractional part dropped. *)
Theorem time_is_truncated_clock
        (event context : pyval) (w : world store) (r : pyval) :
  fst (lambda_handler event context w) = Ok r ->
  exists z,
    dict_get r (lit "time") = Some (PyInt z) /\
    z = int_of_float (clock w) /\
    truncation_of (clock w) z.
Proof.
  intros Hr. apply lambda_handler_inv in Hr as (text & _ & ->).
  exists (int_of_float (clock w)).
  split; [reflexivity|]. split; [reflexivity|].
  apply int_of_float_truncation.
Qed.

(** C5: when [str(event)] succeeds, the handler returns a record and
    raises no exception. *)
Theorem lambda_handler_returns
        (event context : pyval) (w : world store) (text : pystr) :
  py_str event = Ok text ->
  (exists r, fst (lambda_handler event context w) = Ok r) /\
  (forall e, fst (lambda_handler event context w) <> Raise e).
Proof.
  intros Hstr.
  rewrite (lambda_handler_ok event context w text Hstr). simpl.
  split; [eexists; reflexivity | discriminate].
Qed.

(** C6: a returned mapping has the four keys [status], [message], [time]
    and [event_preview], and no other key. *)
Theorem lambda_handler_keys
        (event context : pyval) (w : world store) (r : pyval) :
  fst (lambda_handler event context w) = Ok r ->
  dict_keys r =
    Some [ PyStr (lit "status"); PyStr (lit "message");
           PyStr (lit "time"); PyStr (lit "event_preview") ] /\
  (forall key,
      dict_get r key <> None <->
      In key [ lit "status"; lit "message";
               lit "time"; lit "event_preview" ]).
Proof.
  intros Hr. apply lambda_handler_inv in Hr as (text & _ & ->).
  split; [reflexivity|].
  intros key. unfold dict_get, lookup_str.
  split.
  - intros Hget.
    destruct (str_eqb (lit "status") key) eqn:E1;
      [apply str_eqb_eq in E1; subst; simpl; tauto|].
    destruct (str_eqb (lit "message") key) eqn:E2;
      [apply str_eqb_eq in E2; subst; simpl; tauto|].
    destruct (str_eqb (lit "time") key) eqn:E3;
      [apply str_eqb_eq in E3; subst; simpl; tauto|].
    destruct (str_eqb (lit "event_preview") key) eqn:E4;
      [apply str_eqb_eq in E4; subst; simpl; tauto|].
    contradiction Hget; reflexivity.
  - intros [<-|[<-|[<-|[<-|[]]]]]; discriminate.
Qed.

(** C7: for one event and one state of the clock, the handler gives the
    same outcome under any two contexts. *)
Theorem lambda_handler_ignores_context
        (event : pyval) (w : world store) (c1 c2 : pyval) :
  lambda_handler event c1 w = lambda_handler event c2 w.
Proof. reflexivity. Qed.

(** C9: invoked with the empty mapping as event, the handler returns a
    record whose [event_preview] is the two characters of "{}". *)
Theorem event_preview_empty_dict (context : pyval) (w : world store) :
  exists r,
    fst (lambda_handler (PyDict []) context w) = Ok r /\
    dict_get r (lit "event_preview") = Some (PyStr (lit "{}")) /\
    lit "{}" = [123; 125].
Proof.
  eexists. split; [reflexivity|]. split; reflexivity.
Qed.

(** C10: for an event that is a string, [event_preview] is the first 200
    characters of that very string (all of it when it is shorter), with
    no quote added and nothing escaped; the event "ok" gives the two
    characters o and k, where its [repr] is quoted. *)
Theorem event_preview_of_string
        (s : pystr) (context : pyval) (w : world store) :
  (exists r preview tail,
      fst (lambda_handler (PyStr s) context w) = Ok r /\
      dict_get r (lit "event_preview") = Some (PyStr preview) /\
      s = preview ++ tail /\
      List.length preview = Nat.min 200 (List.length s)) /\
  (exists r,
      fst (lambda_handler (PyStr (lit "ok")) context w) = Ok r /\
      dict_get r (lit "event_preview") = Some (PyStr [111; 107]) /\
      py_repr (PyStr (lit "ok")) = Ok [39; 111; 107; 39]).
Proof.
  split.
  - eexists; exists (slice_to 200 s), (skipn 200 s).
    split; [reflexivity|]. split; [reflexivity|].
    split; [apply slice_to_prefix | apply slice_to_length].
  - eexists. split; [reflexivity|]. split; reflexivity.
Qed.

(** ** Further properties of the handler *)

(** [int] of a float never reverses the order of two readings. *)
Lemma int_of_float_mono (x y : Q) :
  (x <= y)%Q -> (int_of_float x <= int_of_float y)%Z.
Proof.
  intros Hxy.
  pose proof (int_of_float_truncation x) as [Hx1 Hx2].
  pose proof (int_of_float_truncation y) as [Hy1 Hy2].
  revert Hx1 Hx2 Hy1 Hy2.
  generalize (int_of_float x) as i, (int_of_float y) as j.
  destruct x as [n d], y as [m e]. revert Hxy.
  unfold Qle, Qlt. simpl. rewrite !Z.mul_1_r.
  intros Hxy i j Hx1 Hx2 Hy1 Hy2.
  destruct (Z.le_gt_cases 0 n) as [Hn|Hn].
  - assert (Hm : (0 <= m)%Z) by nia.
    specialize (Hx1 Hn). specialize (Hy1 Hm).
    destruct (Z.le_gt_cases i j) as [Hij|Hij]; [exact Hij|exfalso].
    assert ((j + 1) * Z.pos e * Z.pos d <= i * Z.pos d * Z.pos e)%Z by nia.
    nia.
  - assert (Hn' : (n <= 0)%Z) by lia. specialize (Hx2 Hn').
    destruct (Z.le_gt_cases 0 m) as [Hm|Hm].
    + specialize (Hy1 Hm).
      assert (i <= 0)%Z by nia. assert (0 <= j)%Z by nia. lia.
    + assert (Hm' : (m <= 0)%Z) by lia. specialize (Hy2 Hm').
      destruct (Z.le_gt_cases i j) as [Hij|Hij]; [exact Hij|exfalso].
      assert (j * Z.pos e * Z.pos d <= (i - 1) * Z.pos d * Z.pos e)%Z by nia.
      nia.
Qed.

(** X1: the [event_preview] of a returned record is a prefix of
    [str(event)] and never has more than 200 characters. *)
Theorem event_preview_bounded
        (event context : pyval) (w : world store) (r : pyval) :
  fst (lambda_handler event context w) = Ok r ->
  exists text preview tail,
    py_str event = Ok text /\
    dict_get r (lit "event_preview") = Some (PyStr preview) /\
    text = preview ++ tail /\
    (List.length preview <= 200)%nat.
Proof.
  intros Hr. apply lambda_handler_inv in Hr as (text & Hstr & ->).
  exists text, (slice_to 200 text), (skipn 200 text).
  split; [exact Hstr|]. split; [reflexivity|].
  split; [apply slice_to_prefix|].
  rewrite slice_to_length. apply Nat.le_min_l.
Qed.


(** X3: of two invocations, the one that reads the earlier clock returns
    the smaller or the same [time]. *)
Theorem time_monotone
        (e1 c1 e2 c2 : pyval) (w1 w2 : world store) (r1 r2 : pyval) :
  fst (lambda_handler e1 c1 w1) = Ok r1 ->
  fst (lambda_handler e2 c2 w2) = Ok r2 ->
  (clock w1 <= clock w2)%Q ->
  exists z1 z2,
    dict_get r1 (lit "time") = Some (PyInt z1) /\
    dict_get r2 (lit "time") = Some (PyInt z2) /\
    (z1 <= z2)%Z.
Proof.
  intros H1 H2 Hclock.
  apply lambda_handler_inv in H1 as (t1 & _ & ->).
  apply lambda_handler_inv in H2 as (t2 & _ & ->).
  exists (int_of_float (clock w1)), (int_of_float (clock w2)).
  split; [reflexivity|]. split; [reflexivity|].
  apply int_of_float_mono; exact Hclock.
Qed.

(** X4: two events with the same text cannot be told apart: under any
    contexts the handler has the same outcome for both. *)
Theorem same_text_same_outcome
        (e1 e2 c1 c2 : pyval) (w : world store) :
  py_str e1 = py_str e2 ->
  lambda_handler e1 c1 w = lambda_handler e2 c2 w.
Proof.
  intros Hstr. destruct (py_str e2) as [text|e] eqn:H2.
  - rewrite (lambda_handler_ok e1 c1 w text Hstr).
    rewrite (lambda_handler_ok e2 c2 w text H2). reflexivity.
  - rewrite (lambda_handler_raise e1 c1 w e Hstr).
    rewrite (lambda_handler_raise e2 c2 w e H2). reflexivity.
Qed.

(** X5: the event reaches [event_preview] only: at one clock reading the
    records returned for any two events agree on every other key. *)
Theorem event_only_in_preview
        (e1 c1 e2 c2 : pyval) (w1 w2 : world store) (r1 r2 : pyval) :
  fst (lambda_handler e1 c1 w1) = Ok r1 ->
  fst (lambda_handler e2 c2 w2) = Ok r2 ->
  clock w1 = clock w2 ->
  forall key,
    key <> lit "event_preview" -> dict_get r1 key = dict_get r2 key.
Proof.
  intros H1 H2 Hclock key Hkey.
  apply lambda_handler_inv in H1 as (t1 & _ & ->).
  apply lambda_handler_inv in H2 as (t2 & _ & ->).
  rewrite Hclock. unfold dict_get, lookup_str.
  destruct (str_eqb (lit "status") key); [reflexivity|].
  destruct (str_eqb (lit "message") key); [reflexivity|].
  destruct (str_eqb (lit "time") key); [reflexivity|].
  destruct (str_eqb (lit "event_preview") key) eqn:E; [|reflexivity].
  apply str_eqb_eq in E. congruence.
Qed.

(** X6: the clock reaches [time] only: the records returned for two events
    with the same text agree on every other key, whatever the two clock
    readings. *)
Theorem clock_only_in_time
        (e1 c1 e2 c2 : pyval) (w1 w2 : world store) (r1 r2 : pyval) :
  fst (lambda_handler e1 c1 w1) = Ok r1 ->
  fst (lambda_handler e2 c2 w2) = Ok r2 ->
  py_str e1 = py_str e2 ->
  forall key,
    key <> lit "time" -> dict_get r1 key = dict_get r2 key.
Proof.
  intros H1 H2 Hstr key Hkey.
  apply lambda_handler_inv in H1 as (t1 & Ht1 & ->).
  apply lambda_handler_inv in H2 as (t2 & Ht2 & ->).
  assert (t1 = t2) as -> by congruence.
  unfold dict_get, lookup_str.
  destruct (str_eqb (lit "status") key); [reflexivity|].
  destruct (str_eqb (lit "message") key); [reflexivity|].
  destruct (str_eqb (lit "time") key) eqn:E; [|reflexivity].
  apply str_eqb_eq in E. congruence.
Qed.

(** X7: a preview sent back as the event of another invocation comes out
    unchanged: it is a string of at most 200 characters. *)
Theorem event_preview_fixed_point
        (event c1 c2 : pyval) (w1 w2 : world store) (r : pyval) :
  fst (lambda_handler event c1 w1) = Ok r ->
  exists preview r',
    dict_get r (lit "event_preview") = Some (PyStr preview) /\
    fst (lambda_handler (PyStr preview) c2 w2) = Ok r' /\
    dict_get r' (lit "event_preview") = Some (PyStr preview).
Proof.
  intros Hr. apply lambda_handler_inv in Hr as (text & _ & ->).
  exists (slice_to 200 text). eexists.
  split; [reflexivity|].
  rewrite (lambda_handler_ok (PyStr (slice_to 200 text)) c2 w2
             (slice_to 200 text) eq_refl).
  split; [reflexivity|].
  rewrite (slice_to_all 200 (slice_to 200 text)); [reflexivity|].
  rewrite slice_to_length. apply Nat.le_min_l.
Qed.

(** X9: the [time] of a returned record is less than one second away
    from the clock reading of the invocation, on either side of the
    epoch. *)
Theorem time_within_a_second
        (event context : pyval) (w : world store) (r : pyval) :
  fst (lambda_handler event context w) = Ok r ->
  exists z,
    dict_get r (lit "time") = Some (PyInt z) /\
    (inject_Z (z - 1) < clock w)%Q /\
    (clock w < inject_Z (z + 1))%Q.
Proof.
  intros Hr. apply lambda_handler_inv in Hr as (text & _ & ->).
  exists (int_of_float (clock w)). split; [reflexivity|].
  pose proof (int_of_float_truncation (clock w)) as [Hpos Hneg].
  revert Hpos Hneg. generalize (int_of_float (clock w)) as z.
  destruct (clock w) as [n d]. unfold Qle, Qlt. simpl.
  rewrite !Z.mul_1_r. intros z Hpos Hneg.
  destruct (Z.le_gt_cases 0 n) as [Hn|Hn].
  - specialize (Hpos Hn). split; nia.
  - assert (Hn' : (n <= 0)%Z) by lia. specialize (Hneg Hn'). split; nia.
Qed.

End Handler.

(** ** The properties at concrete invocations *)

Lemma lambda_handler_status_message_witness :
  fst (lambda_handler ascii_only unit sample_event PyNone sample_world)
    = Ok sample_result /\
  (dict_get sample_result (lit "status") = Some (PyStr (lit "ok")) /\
   dict_get sample_result (lit "message")
     = Some (PyStr (lit "ingestor heartbeat"))).
Proof.
  split; [reflexivity|].
  apply (lambda_handler_status_message
           ascii_only unit sample_event PyNone sample_world sample_result).
  reflexivity.
Defined.

Lemma event_preview_short_witness :
  py_str ascii_only sample_event = Ok sample_text /\
  (List.length sample_text <= 200)%nat /\
  (exists r,
      fst (lambda_handler ascii_only unit sample_event PyNone sample_world)
        = Ok r /\
      dict_get r (lit "event_preview") = Some (PyStr sample_text)).
Proof.
  split; [reflexivity|]. split; [simpl; lia|].
  apply (event_preview_short
           ascii_only unit sample_event PyNone sample_world sample_text).
  - reflexivity.
  - simpl; lia.
Defined.

Lemma event_preview_long_witness :
  py_str ascii_only long_event = Ok long_text /\
  (200 < List.length long_text)%nat /\
  (exists r preview tail,
      fst (lambda_handler ascii_only unit long_event PyNone sample_world)
        = Ok r /\
      dict_get r (lit "event_preview") = Some (PyStr preview) /\
      long_text = preview ++ tail /\
      List.length preview = 200%nat).
Proof.
  split; [vm_compute; reflexivity|].
  split; [apply Nat.ltb_lt; vm_compute; reflexivity|].
  apply (event_preview_long
           ascii_only unit long_event PyNone sample_world long_text).
  - vm_compute; reflexivity.
  - apply Nat.ltb_lt; vm_compute; reflexivity.
Defined.

Lemma time_is_truncated_clock_witness :
  fst (lambda_handler ascii_only unit sample_event PyNone sample_world)
    = Ok sample_result /\
  (exists z,
      dict_get sample_result (lit "time") = Some (PyInt z) /\
      z = int_of_float (clock sample_world) /\
      truncation_of (clock sample_world) z).
Proof.
  split; [reflexivity|].
  apply (time_is_truncated_clock
           ascii_only unit sample_event PyNone sample_world sample_result).
  reflexivity.
Defined.

Lemma lambda_handler_returns_witness :
  py_str ascii_only sample_event = Ok sample_text /\
  ((exists r,
       fst (lambda_handler ascii_only unit sample_event PyNone sample_world)
         = Ok r) /\
   (forall e,
       fst (lambda_handler ascii_only unit sample_event PyNone sample_world)
         <> Raise e)).
Proof.
  split; [reflexivity|].
  apply (lambda_handler_returns
           ascii_only unit sample_event PyNone sample_world sample_text).
  reflexivity.
Defined.

Lemma lambda_handler_keys_witness :
  fst (lambda_handler ascii_only unit sample_event PyNone sample_world)
    = Ok sample_result /\
  (dict_keys sample_result =
     Some [ PyStr (lit "status"); PyStr (lit "message");
            PyStr (lit "time"); PyStr (lit "event_preview") ] /\
   (forall key,
       dict_get sample_result key <> None <->
       In key [ lit "status"; lit "message";
                lit "time"; lit "event_preview" ])).
Proof.
  split; [reflexivity|].
  apply (lambda_handler_keys
           ascii_only unit sample_event PyNone sample_world sample_result).
  reflexivity.
Defined.

(** ** The handler on a failing event *)

(** When [str(event)] raises, so does the handler, and the process state
    is still what it was. *)
Example lambda_handler_unprintable :
  lambda_handler ascii_only unit unprintable PyNone sample_world
    = (Raise (PyExc "ValueError"), sample_world).
Proof. reflexivity. Qed.

(** Inside a container the [repr] of an element is used, not its [str]. *)
Example lambda_handler_unprintable_nested :
  exists r,
    fst (lambda_handler ascii_only unit (PyList [unprintable; PyNone])
           PyNone sample_world) = Ok r /\
    dict_get r (lit "event_preview")
      = Some (PyStr (lit "[<Unprintable>, None]")).
Proof. eexists; split; reflexivity. Qed.

(** ** The further properties at concrete invocations *)

Lemma event_preview_bounded_witness :
  fst (lambda_handler ascii_only unit long_event PyNone sample_world)
    = Ok long_result /\
  (exists text preview tail,
      py_str ascii_only long_event = Ok text /\
      dict_get long_result (lit "event_preview") = Some (PyStr preview) /\
      text = preview ++ tail /\
      (List.length preview <= 200)%nat).
Proof.
  split; [vm_compute; reflexivity|].
  apply (event_preview_bounded
           ascii_only unit long_event PyNone sample_world long_result).
  vm_compute; reflexivity.
Defined.

Lemma time_monotone_witness :
  fst (lambda_handler ascii_only unit sample_event PyNone sample_world)
    = Ok sample_result /\
  fst (lambda_handler ascii_only unit sample_string PyNone later_world)
    = Ok later_result /\
  (clock sample_world <= clock later_world)%Q /\
  (exists z1 z2,
      dict_get sample_result (lit "time") = Some (PyInt z1) /\
      dict_get later_result (lit "time") = Some (PyInt z2) /\
      (z1 <= z2)%Z).
Proof.
  split; [reflexivity|]. split; [reflexivity|].
  split; [unfold Qle; simpl; lia|].
  apply (time_monotone
           ascii_only unit sample_event PyNone sample_string PyNone
           sample_world later_world sample_result later_result).
  - reflexivity.
  - reflexivity.
  - unfold Qle; simpl; lia.
Defined.

Lemma same_text_same_outcome_witness :
  py_str ascii_only sample_event = py_str ascii_only sample_string /\
  lambda_handler ascii_only unit sample_event PyNone sample_world
    = lambda_handler ascii_only unit sample_string (PyInt 1) sample_world.
Proof.
  split; [reflexivity|].
  apply (same_text_same_outcome
           ascii_only unit sample_event sample_string PyNone (PyInt 1)
           sample_world).
  reflexivity.
Defined.

Lemma event_only_in_preview_witness :
  fst (lambda_handler ascii_only unit sample_event PyNone sample_world)
    = Ok sample_result /\
  fst (lambda_handler ascii_only unit long_event PyNone sample_world)
    = Ok long_result /\
  clock sample_world = clock sample_world /\
  (forall key,
      key <> lit "event_preview" ->
      dict_get sample_result key = dict_get long_result key).
Proof.
  split; [reflexivity|]. split; [vm_compute; reflexivity|].
  split; [reflexivity|].
  apply (event_only_in_preview
           ascii_only unit sample_event PyNone long_event PyNone
           sample_world sample_world sample_result long_result).
  - reflexivity.
  - vm_compute; reflexivity.
  - reflexivity.
Defined.

Lemma clock_only_in_time_witness :
  fst (lambda_handler ascii_only unit sample_event PyNone sample_world)
    = Ok sample_result /\
  fst (lambda_handler ascii_only unit sample_string PyNone later_world)
    = Ok later_result /\
  py_str ascii_only sample_event = py_str ascii_only sample_string /\
  (forall key,
      key <> lit "time" ->
      dict_get sample_result key = dict_get later_result key).
Proof.
  split; [reflexivity|]. split; [reflexivity|]. split; [reflexivity|].
  apply (clock_only_in_time
           ascii_only unit sample_event PyNone sample_string PyNone
           sample_world later_world sample_result later_result).
  - reflexivity.
  - reflexivity.
  - reflexivity.
Defined.

Lemma event_preview_fixed_point_witness :
  fst (lambda_handler ascii_only unit long_event PyNone sample_world)
    = Ok long_result /\
  (exists preview r',
      dict_get long_result (lit "event_preview") = Some (PyStr preview) /\
      fst (lambda_handler ascii_only unit (PyStr preview) PyNone later_world)
        = Ok r' /\
      dict_get r' (lit "event_preview") = Some (PyStr preview)).
Proof.
  split; [vm_compute; reflexivity|].
  apply (event_preview_fixed_point
           ascii_only unit long_event PyNone PyNone
           sample_world later_world long_result).
  vm_compute; reflexivity.
Defined.

Lemma time_within_a_second_witness :
  fst (lambda_handler ascii_only unit sample_event PyNone sample_world)
    = Ok sample_result /\
  (exists z,
      dict_get sample_result (lit "time") = Some (PyInt z) /\
      (inject_Z (z - 1) < clock sample_world)%Q /\
      (clock sample_world < inject_Z (z + 1))%Q).
Proof.
  split; [reflexivity|].
  apply (time_within_a_second
           ascii_only unit sample_event PyNone sample_world sample_result).
  reflexivity.
Defined.
